(** * PDFNotes: the page/annotation-overlay glue of [src/PDFNotes/src/App.tsx]

    The [App] component keeps eight pieces of React state, three refs and one
    [useEffect] whose dependency array decides when the fabric canvas is torn
    down and rebuilt.  The development below embeds

    - the component state and its handlers as pure functions on [AppState];
    - the refs and the fabric canvas as an explicit store, [World], threaded
      through a small state monad, so that the effect body reads like the
      TypeScript it comes from;
    - React's commit rule for an effect with a dependency array: the previous
      cleanup and the effect body run exactly when one dependency changed
      ([Object.is] on each entry);
    - the controls of the rendered tree with their [disabled] attributes and
      the [file && ...] guard, as [dispatch].

    Two collaborators are outside the repository.  Of fabric only what the
    component calls is modelled: the constructor with the options it is given,
    [dispose], [setWidth] and [setHeight], and assignments to brush
    properties.  Whether a new canvas comes with a [freeDrawingBrush] is the
    library's business and is a parameter here; [fabric6] is the library
    the component is written against.  Of react-pdf only the
    [onLoadSuccess] callback appears; when the elements behind [canvasRef] and
    [pageRef] are attached is left to the environment ([DomUpdate]). *)

From Stdlib Require Import ZArith String List Bool QArith Lia.
Import ListNotations.
Local Open Scope string_scope.
Local Open Scope list_scope.
Local Open Scope Z_scope.

Module PDFNotes.

(** ** JavaScript values *)

(** [parseInt] yields an integer or [NaN]; the size inputs store its result. *)
Inductive number : Type :=
| Num (z : Z)
| NaN.

(** [Object.is] on numbers ([NaN] is equal to itself). *)
Definition number_is (a b : number) : bool :=
  match a, b with
  | Num x, Num y => Z.eqb x y
  | NaN, NaN => true
  | _, _ => false
  end.

Inductive Tool : Type := pen | highlighter | eraser.

Definition Tool_is (a b : Tool) : bool :=
  match a, b with
  | pen, pen | highlighter, highlighter | eraser, eraser => true
  | _, _ => false
  end.

Definition mode_is (a b : option Tool) : bool :=
  match a, b with
  | Some x, Some y => Tool_is x y
  | None, None => true
  | _, _ => false
  end.

(** An opaque file handle handed over by the file input. *)
Record File : Type := mkFile { fileName : string }.

(** ** Component state (the [useState] cells, lines 13-20) *)

Record AppState : Type := mkApp {
  file : option File;
  numPages : Z;
  currentPage : Z;
  annotationMode : option Tool;
  penColor : string;
  penSize : number;
  highlighterColor : string;
  highlighterSize : number
}.

Definition initialState : AppState :=
  {| file := None; numPages := 0; currentPage := 1; annotationMode := None;
     penColor := "#000000"; penSize := Num 2;
     highlighterColor := "#FFFF00"; highlighterSize := Num 10 |}.

Definition setFile (v : option File) (s : AppState) : AppState :=
  mkApp v (numPages s) (currentPage s) (annotationMode s)
        (penColor s) (penSize s) (highlighterColor s) (highlighterSize s).

Definition setNumPages (v : Z) (s : AppState) : AppState :=
  mkApp (file s) v (currentPage s) (annotationMode s)
        (penColor s) (penSize s) (highlighterColor s) (highlighterSize s).

Definition setCurrentPage (v : Z) (s : AppState) : AppState :=
  mkApp (file s) (numPages s) v (annotationMode s)
        (penColor s) (penSize s) (highlighterColor s) (highlighterSize s).

Definition setAnnotationMode (v : option Tool) (s : AppState) : AppState :=
  mkApp (file s) (numPages s) (currentPage s) v
        (penColor s) (penSize s) (highlighterColor s) (highlighterSize s).

Definition setPenColor (v : string) (s : AppState) : AppState :=
  mkApp (file s) (numPages s) (currentPage s) (annotationMode s)
        v (penSize s) (highlighterColor s) (highlighterSize s).

Definition setPenSize (v : number) (s : AppState) : AppState :=
  mkApp (file s) (numPages s) (currentPage s) (annotationMode s)
        (penColor s) v (highlighterColor s) (highlighterSize s).

Definition setHighlighterColor (v : string) (s : AppState) : AppState :=
  mkApp (file s) (numPages s) (currentPage s) (annotationMode s)
        (penColor s) (penSize s) v (highlighterSize s).

Definition setHighlighterSize (v : number) (s : AppState) : AppState :=
  mkApp (file s) (numPages s) (currentPage s) (annotationMode s)
        (penColor s) (penSize s) (highlighterColor s) v.

(** ** Handlers (lines 26-44) *)

(** [e.target.files?.[0]] is the selected file or [undefined]. *)
Definition onFileChange (selectedFile : option File) (s : AppState) : AppState :=
  match selectedFile with
  | Some f => setCurrentPage 1 (setFile (Some f) s)
  | None => s
  end.

Definition onDocumentLoadSuccess (n : Z) (s : AppState) : AppState :=
  setNumPages n s.

Definition handlePageChange (newPage : Z) (s : AppState) : AppState :=
  setCurrentPage newPage s.

Definition handleAnnotationToolSelect (tool : Tool) (s : AppState) : AppState :=
  setAnnotationMode (Some tool) s.

(** ** The dependency array of the effect (line 115) *)

Record Deps : Type := mkDeps {
  d_annotationMode : option Tool;
  d_penColor : string;
  d_penSize : number;
  d_highlighterColor : string;
  d_highlighterSize : number;
  d_currentPage : Z
}.

Definition deps (s : AppState) : Deps :=
  mkDeps (annotationMode s) (penColor s) (penSize s)
         (highlighterColor s) (highlighterSize s) (currentPage s).

(** React compares the arrays entry by entry with [Object.is]. *)
Definition deps_same (a b : Deps) : bool :=
  mode_is (d_annotationMode a) (d_annotationMode b)
  && String.eqb (d_penColor a) (d_penColor b)
  && number_is (d_penSize a) (d_penSize b)
  && String.eqb (d_highlighterColor a) (d_highlighterColor b)
  && number_is (d_highlighterSize a) (d_highlighterSize b)
  && Z.eqb (d_currentPage a) (d_currentPage b).

(** ** The fabric canvas, as far as the component touches it *)

Record Brush : Type := mkBrush {
  color : string;
  width : number;
  opacity : option Q;          (* not declared by the library's types *)
  strokeLineCap : string;
  strokeLineJoin : string;
  mode : option string         (* not declared by the library's types *)
}.

(** A stroke is the path of points it was drawn through. *)
Definition Stroke : Type := list (Z * Z).

Record Canvas : Type := mkCanvas {
  isDrawingMode : bool;
  canvasWidth : Z;
  canvasHeight : Z;
  preserveObjectStacking : bool;
  freeDrawingBrush : option Brush;
  objects : list Stroke
}.

Definition set_isDrawingMode (v : bool) (c : Canvas) : Canvas :=
  mkCanvas v (canvasWidth c) (canvasHeight c) (preserveObjectStacking c)
           (freeDrawingBrush c) (objects c).

Definition set_freeDrawingBrush (v : option Brush) (c : Canvas) : Canvas :=
  mkCanvas (isDrawingMode c) (canvasWidth c) (canvasHeight c)
           (preserveObjectStacking c) v (objects c).

(** What the library does to the canvas while the user draws or erases on it. *)
Definition set_objects (v : list Stroke) (c : Canvas) : Canvas :=
  mkCanvas (isDrawingMode c) (canvasWidth c) (canvasHeight c)
           (preserveObjectStacking c) (freeDrawingBrush c) v.

(** [canvas.setWidth(v)] and [canvas.setHeight(v)]: the library changes the
    dimension and leaves the objects on the canvas as they are. *)
Definition setWidth (v : Z) (c : Canvas) : Canvas :=
  mkCanvas (isDrawingMode c) v (canvasHeight c) (preserveObjectStacking c)
           (freeDrawingBrush c) (objects c).

Definition setHeight (v : Z) (c : Canvas) : Canvas :=
  mkCanvas (isDrawingMode c) (canvasWidth c) v (preserveObjectStacking c)
           (freeDrawingBrush c) (objects c).

(** ** The DOM elements behind the refs *)

Inductive HTMLCanvasElement : Type := AnnotationCanvas.

Record HTMLDivElement : Type := mkDiv { clientWidth : Z; clientHeight : Z }.

(** ** The store: state, refs, what React and the window hold on to *)

Inductive SurfaceEvent : Type :=
| Created (c : Canvas)
| Disposed (c : Canvas).

Record World : Type := mkWorld {
  st : AppState;
  canvasRef : option HTMLCanvasElement;
  pageRef : option HTMLDivElement;
  fabricRef : option Canvas;
  resizeListener : bool;     (* [handleResize] is registered on the window *)
  effectCleanup : bool;      (* the last effect run returned its cleanup *)
  lifecycle : list SurfaceEvent   (* constructor and dispose calls, in order *)
}.

Definition with_st (v : AppState) (w : World) : World :=
  mkWorld v (canvasRef w) (pageRef w) (fabricRef w)
          (resizeListener w) (effectCleanup w) (lifecycle w).

Definition with_dom (c : option HTMLCanvasElement) (p : option HTMLDivElement)
  (w : World) : World :=
  mkWorld (st w) c p (fabricRef w)
          (resizeListener w) (effectCleanup w) (lifecycle w).

Definition with_fabricRef (v : option Canvas) (w : World) : World :=
  mkWorld (st w) (canvasRef w) (pageRef w) v
          (resizeListener w) (effectCleanup w) (lifecycle w).

Definition with_resizeListener (v : bool) (w : World) : World :=
  mkWorld (st w) (canvasRef w) (pageRef w) (fabricRef w)
          v (effectCleanup w) (lifecycle w).

Definition with_effectCleanup (v : bool) (w : World) : World :=
  mkWorld (st w) (canvasRef w) (pageRef w) (fabricRef w)
          (resizeListener w) v (lifecycle w).

Definition with_lifecycle (v : list SurfaceEvent) (w : World) : World :=
  mkWorld (st w) (canvasRef w) (pageRef w) (fabricRef w)
          (resizeListener w) (effectCleanup w) v.

(** ** A state monad over the store *)

Definition Eff (A : Type) : Type := World -> A * World.

Definition ret {A} (a : A) : Eff A := fun w => (a, w).

Definition bind {A B} (m : Eff A) (k : A -> Eff B) : Eff B :=
  fun w => let (a, w') := m w in k a w'.

Notation "x <- m ;; k" := (bind m (fun x => k))
  (at level 61, m at next level, right associativity).
Notation "m ;;; k" := (bind m (fun _ => k))
  (at level 61, right associativity).

Definition read {A} (f : World -> A) : Eff A := fun w => (f w, w).

Definition write (f : World -> World) : Eff unit := fun w => (tt, f w).

Definition exec {A} (m : Eff A) (w : World) : World := snd (m w).

(** [c.dispose()]: the canvas and what was drawn on it are released. *)
Definition dispose (c : Canvas) : Eff unit :=
  write (fun w => with_lifecycle (lifecycle w ++ [Disposed c]) w).

(** Mount of the component: nothing is rendered below [file && ...], so both
    refs are empty and the first effect run returns at its guard. *)
Definition initialWorld : World :=
  mkWorld initialState None None None false false [].

(** ** What can happen to the component *)

Inductive Event : Type :=
| FileInputChange (selectedFile : option File)
| DocumentLoadSuccess (n : Z)
| ClickTool (tool : Tool)
| PenColorInput (v : string)
| PenSizeInput (v : number)
| HighlighterColorInput (v : string)
| HighlighterSizeInput (v : number)
| ClickPrevious
| ClickNext
| WindowResize
| PointerDraw (result : list Stroke)
| DomUpdate (c : option HTMLCanvasElement) (p : option HTMLDivElement).

(** ** Sample data for the scenarios *)

(** The pencil brush fabric builds when it equips a canvas with one. *)
Definition pencilBrush : Brush :=
  mkBrush "rgb(0, 0, 0)" (Num 1) None "round" "round" None.

(** A fabric build that equips every new canvas with such a brush, as the
    releases before 6 did.  It is the sample library of the scenarios that
    need a stroke on the canvas. *)
Definition pencilFabric : option Brush := Some pencilBrush.

(** fabric 6.x, which the component is written against (the import at
    line 3, the remark at line 82): a new canvas has no [freeDrawingBrush]
    until one is assigned to it, and the component assigns none. *)
Definition fabric6 : option Brush := None.

Definition sampleFile : File := mkFile "notes.pdf".

Definition letterPage : HTMLDivElement := mkDiv 612 792.

Definition sampleStroke : Stroke := [(10, 10); (20, 25); (40, 30)].

(** A three-page document is chosen, loads, and its page is laid out. *)
Definition openDocument : list Event :=
  [FileInputChange (Some sampleFile);
   DocumentLoadSuccess 3;
   DomUpdate (Some AnnotationCanvas) (Some letterPage)].

Section Surface.

(** What [new fabric.Canvas] leaves in [freeDrawingBrush]: the library's
    choice, guarded against in the component by [if (canvas.freeDrawingBrush)]. *)
Variable defaultBrush : option Brush.

(** [new fabric.Canvas(el, { isDrawingMode, width, height,
    preserveObjectStacking })]: a canvas with nothing drawn on it.  A
    positive [width] or [height] option is the dimension of the canvas; for
    an option of 0 the library takes the size of the element instead, which
    is not modelled, so nothing is claimed below about the size of a canvas
    constructed for a page container of width or height 0. *)
Definition new_Canvas (el : HTMLCanvasElement)
  (drawing : bool) (w h : Z) (stacking : bool) : Eff Canvas :=
  fun world =>
    let c := mkCanvas drawing w h stacking defaultBrush [] in
    (c, with_lifecycle (lifecycle world ++ [Created c]) world).

(** Lines 74-79: the five assignments of the pen/highlighter branch. *)
Definition drawBrush (s : AppState) (b : Brush) : Brush :=
  let isPen := mode_is (annotationMode s) (Some pen) in
  mkBrush (if isPen then penColor s else highlighterColor s)
          (if isPen then penSize s else highlighterSize s)
          (Some (if isPen then 1%Q else (1 # 2)%Q))
          "round" "round" (mode b).

(** Lines 86-87: the two assignments of the eraser branch. *)
Definition eraseBrush (b : Brush) : Brush :=
  mkBrush (color b) (Num 20) (opacity b)
          (strokeLineCap b) (strokeLineJoin b) (Some "erase").

(** Lines 69-91, on the canvas object that [fabricRef.current] points to. *)
Definition configure (s : AppState) (canvas : Canvas) : Canvas :=
  let canvas := set_isDrawingMode false canvas in
  match annotationMode s with
  | Some pen | Some highlighter =>
      let canvas := set_isDrawingMode true canvas in
      match freeDrawingBrush canvas with
      | Some b => set_freeDrawingBrush (Some (drawBrush s b)) canvas
      | None => canvas
      end
  | Some eraser =>
      let canvas := set_isDrawingMode true canvas in
      match freeDrawingBrush canvas with
      | Some b => set_freeDrawingBrush (Some (eraseBrush b)) canvas
      | None => canvas
      end
  | None => set_isDrawingMode false canvas
  end.

(** Lines 65-92.  The canvas is mutated in place, so the ref sees the result. *)
Definition updateDrawingMode (s : AppState) : Eff unit :=
  current <- read fabricRef ;;
  match current with
  | None => ret tt
  | Some canvas => write (with_fabricRef (Some (configure s canvas)))
  end.

(** Lines 47-106: the effect body of a render with state [s].  The result
    tells whether a cleanup function was returned. *)
Definition effectBody (s : AppState) : Eff bool :=
  el <- read canvasRef ;;
  page <- read pageRef ;;
  match el, page with
  | Some el, Some page =>
      old <- read fabricRef ;;
      (match old with
       | Some c => dispose c
       | None => ret tt
       end) ;;;
      canvas <- new_Canvas el true (clientWidth page) (clientHeight page) true ;;
      write (with_fabricRef (Some canvas)) ;;;
      updateDrawingMode s ;;;
      write (with_resizeListener true) ;;;
      ret true
  | _, _ => ret false
  end.

(** Lines 108-114: the cleanup returned by the effect. *)
Definition cleanup : Eff unit :=
  write (with_resizeListener false) ;;;
  current <- read fabricRef ;;
  match current with
  | Some c => dispose c ;;; write (with_fabricRef None)
  | None => ret tt
  end.

(** Lines 99-104. *)
Definition handleResize : Eff unit :=
  current <- read fabricRef ;;
  page <- read pageRef ;;
  match current, page with
  | Some c, Some p =>
      write (with_fabricRef
               (Some (setHeight (clientHeight p) (setWidth (clientWidth p) c))))
  | _, _ => ret tt
  end.

(** React commits a render with state [s']: the effect is skipped when every
    dependency is the same as in the previous render; otherwise the previous
    cleanup, if there is one, runs before the new effect body. *)
Definition commit (s' : AppState) : Eff unit :=
  s <- read st ;;
  write (with_st s') ;;;
  if deps_same (deps s) (deps s') then ret tt
  else
    registered <- read effectCleanup ;;
    (if registered : bool
     then cleanup ;;; write (with_effectCleanup false)
     else ret tt) ;;;
    returned <- effectBody s' ;;
    write (with_effectCleanup returned).

Definition rerender (s' : AppState) (w : World) : World := exec (commit s') w.

(** The page-change and tool-selection operations as the component performs
    them: the handler's state update followed by the commit. *)
Definition goToPage (p : Z) (w : World) : World :=
  rerender (handlePageChange p (st w)) w.

Definition selectTool (tool : Tool) (w : World) : World :=
  rerender (handleAnnotationToolSelect tool (st w)) w.

(** The toolbar and the viewer are rendered only below [file && ...]. *)
Definition shown (s : AppState) : bool :=
  match file s with
  | Some _ => true
  | None => false
  end.

(** The rendered tree, lines 117-235: which handler a control calls, and when
    the control is there and enabled. *)
Definition dispatch (e : Event) (w : World) : World :=
  let s := st w in
  match e with
  | FileInputChange selectedFile => rerender (onFileChange selectedFile s) w
  | DocumentLoadSuccess n =>
      if shown s then rerender (onDocumentLoadSuccess n s) w else w
  | ClickTool tool => if shown s then selectTool tool w else w
  | PenColorInput v =>
      if shown s && mode_is (annotationMode s) (Some pen)
      then rerender (setPenColor v s) w else w
  | PenSizeInput v =>
      if shown s && mode_is (annotationMode s) (Some pen)
      then rerender (setPenSize v s) w else w
  | HighlighterColorInput v =>
      if shown s && mode_is (annotationMode s) (Some highlighter)
      then rerender (setHighlighterColor v s) w else w
  | HighlighterSizeInput v =>
      if shown s && mode_is (annotationMode s) (Some highlighter)
      then rerender (setHighlighterSize v s) w else w
  | ClickPrevious =>
      if shown s && negb (currentPage s =? 1)
      then goToPage (currentPage s - 1) w else w
  | ClickNext =>
      if shown s && negb (currentPage s =? numPages s)
      then goToPage (currentPage s + 1) w else w
  | WindowResize => if resizeListener w then exec handleResize w else w
  | PointerDraw result =>
      (* fabric's own pointer handling: in drawing mode the gesture is
         handed to the brush of the canvas and leaves [result] as its
         objects; on a canvas without a brush nothing is drawn *)
      match fabricRef w with
      | Some c =>
          if isDrawingMode c
          then match freeDrawingBrush c with
               | Some _ => with_fabricRef (Some (set_objects result c)) w
               | None => w
               end
          else w
      | None => w
      end
  | DomUpdate c p => with_dom c p w
  end.

(** The worlds the component can be in. *)
Inductive reachable : World -> Prop :=
| reach_mount : reachable initialWorld
| reach_event (e : Event) (w : World) :
    reachable w -> reachable (dispatch e w).

Fixpoint run (es : list Event) (w : World) : World :=
  match es with
  | [] => w
  | e :: es' => run es' (dispatch e w)
  end.

(** The canvas the effect constructs for a page container of the given size. *)
Definition freshCanvas (page : HTMLDivElement) : Canvas :=
  mkCanvas true (clientWidth page) (clientHeight page) true defaultBrush [].

(** A surface is set up for state [s] when its drawing mode and its brush are
    what [updateDrawingMode] leaves on a new canvas. *)
Definition configuredFor (s : AppState) (c : Canvas) : Prop :=
  forall page,
    isDrawingMode c = isDrawingMode (configure s (freshCanvas page)) /\
    freeDrawingBrush c = freeDrawingBrush (configure s (freshCanvas page)).

(** What holds of the store in every reachable world. *)
Definition storeInv (w : World) : Prop :=
  forall c, fabricRef w = Some c ->
            effectCleanup w = true /\ configuredFor (st w) c.

(** The session's page range. *)
Definition pageInRange (s : AppState) : Prop :=
  1 <= currentPage s <= numPages s.

(** Scenario worlds: the pen is picked on page 1; a stroke is drawn; the
    user then moves to page 2. *)
Definition penWorld : World := run (openDocument ++ [ClickTool pen]) initialWorld.

Definition drawnWorld : World := dispatch (PointerDraw [sampleStroke]) penWorld.

Definition secondPageWorld : World := dispatch ClickNext penWorld.

(** A file was chosen and the page container is attached but not laid out. *)
Definition collapsedWorld : World :=
  run [FileInputChange (Some sampleFile);
       DocumentLoadSuccess 3;
       DomUpdate (Some AnnotationCanvas) (Some (mkDiv 0 0))] initialWorld.

(** The stroke is on the canvas and the page container has been laid out
    anew, at another size. *)
Definition relaidWorld : World :=
  dispatch (DomUpdate (Some AnnotationCanvas) (Some (mkDiv 800 1000)))
           drawnWorld.

(** The component is removed: React runs the cleanup of the last effect run,
    if that run returned one. *)
Definition unmount (w : World) : World :=
  if effectCleanup w
  then exec (cleanup ;;; write (with_effectCleanup false)) w
  else w.

(** ** Reading the record of constructor and dispose calls *)

Definition surfaceLive (w : World) : bool :=
  match fabricRef w with
  | Some _ => true
  | None => false
  end.

(** One call, seen from "is a canvas alive": a canvas may be constructed only
    when none is alive and disposed only when one is; anything else is a leak
    or a second dispose. *)
Definition logStep (live : option bool) (e : SurfaceEvent) : option bool :=
  match live, e with
  | Some false, Created _ => Some true
  | Some true, Disposed _ => Some false
  | _, _ => None
  end.

Definition logState (l : list SurfaceEvent) : option bool :=
  fold_left logStep l (Some false).

(** What React, the window and the record agree on. *)
Definition wellKept (w : World) : Prop :=
  effectCleanup w = surfaceLive w /\
  resizeListener w = surfaceLive w /\
  logState (lifecycle w) = Some (surfaceLive w).


(** ** The attributes of the rendered controls (lines 139-228) *)

Definition toolButtonClass (tool : Tool) (s : AppState) : string :=
  String.append "tool-button "
    (if mode_is (annotationMode s) (Some tool) then "active" else "").

Definition penInputsDisabled (s : AppState) : bool :=
  negb (mode_is (annotationMode s) (Some pen)).

Definition highlighterInputsDisabled (s : AppState) : bool :=
  negb (mode_is (annotationMode s) (Some highlighter)).

Definition previousDisabled (s : AppState) : bool := currentPage s =? 1.

Definition nextDisabled (s : AppState) : bool := currentPage s =? numPages s.

(** More scenario worlds: page 2 reached with no tool picked; the stroke is
    on the canvas and the viewer's elements have been taken off the page. *)
Definition idleWorld : World := run (openDocument ++ [ClickNext]) initialWorld.

Definition detachedWorld : World := dispatch (DomUpdate None None) drawnWorld.

(** ** The strokes on the surface, and the library without a brush *)




(** A document is opened and a tool button is clicked. *)
Definition toolWorld (tool : Tool) : World :=
  run (openDocument ++ [ClickTool tool]) initialWorld.

(** The eraser is picked while the document is still loading, before the
    canvas and the page container are attached. *)
Definition earlyEraserWorld : World :=
  run [FileInputChange (Some sampleFile);
       ClickTool eraser;
       DocumentLoadSuccess 3;
       DomUpdate (Some AnnotationCanvas) (Some letterPage)] initialWorld.


(** ** Equality tests *)

Lemma number_is_eq (a b : number) : number_is a b = true <-> a = b.
Proof.
  destruct a as [x|], b as [y|]; cbn; try (split; congruence).
  rewrite Z.eqb_eq. split; congruence.
Qed.

Lemma mode_is_eq (a b : option Tool) : mode_is a b = true <-> a = b.
Proof.
  destruct a as [[]|], b as [[]|]; cbn; split; congruence.
Qed.

Lemma deps_same_eq (a b : Deps) : deps_same a b = true <-> a = b.
Proof.
  destruct a, b; unfold deps_same; cbn.
  rewrite !andb_true_iff, !mode_is_eq, !number_is_eq, !String.eqb_eq, Z.eqb_eq.
  split.
  - intros [[[[[-> ->] ->] ->] ->] ->]. reflexivity.
  - intros H. injection H as -> -> -> -> -> ->. repeat split.
Qed.

Lemma deps_same_refl (a : Deps) : deps_same a a = true.
Proof. apply deps_same_eq. reflexivity. Qed.

Lemma deps_same_neq (a b : Deps) : deps_same a b = false <-> a <> b.
Proof.
  rewrite <- deps_same_eq. destruct (deps_same a b); split; congruence.
Qed.

Lemma with_st_same (w : World) : with_st (st w) w = w.
Proof. destruct w; reflexivity. Qed.

(** ** The commit, case by case *)

Lemma rerender_skip (s' : AppState) (w : World) :
  deps s' = deps (st w) -> rerender s' w = with_st s' w.
Proof.
  intros H. unfold rerender, exec, commit, bind, read, write, ret. cbn.
  rewrite <- H, deps_same_refl. reflexivity.
Qed.

Lemma rerender_same_state (w : World) : rerender (st w) w = w.
Proof. rewrite rerender_skip by reflexivity. apply with_st_same. Qed.

Lemma st_rerender (s' : AppState) (w : World) : st (rerender s' w) = s'.
Proof.
  unfold rerender, exec, commit, effectBody, cleanup, updateDrawingMode,
    new_Canvas, dispose, bind, read, write, ret.
  destruct w as [s cr pr fr rl ec lg]; cbn.
  destruct (deps_same (deps s) (deps s')); [reflexivity|].
  destruct ec, fr, cr, pr; reflexivity.
Qed.

Lemma rerender_recreate (s' : AppState) (w : World)
  (el : HTMLCanvasElement) (page : HTMLDivElement) (old : Canvas) :
  deps s' <> deps (st w) ->
  canvasRef w = Some el -> pageRef w = Some page -> fabricRef w = Some old ->
  rerender s' w =
  mkWorld s' (Some el) (Some page) (Some (configure s' (freshCanvas page)))
          true true
          (lifecycle w ++ [Disposed old; Created (freshCanvas page)]).
Proof.
  intros Hd Hc Hp Hf.
  assert (Hs : deps_same (deps (st w)) (deps s') = false)
    by (apply deps_same_neq; congruence).
  unfold rerender, exec, commit, effectBody, cleanup, updateDrawingMode,
    new_Canvas, dispose, bind, read, write, ret.
  destruct w as [s cr pr fr rl ec lg]; cbn in *. subst cr pr fr.
  rewrite Hs. destruct ec; cbn; rewrite <- app_assoc; reflexivity.
Qed.

Lemma rerender_create (s' : AppState) (w : World)
  (el : HTMLCanvasElement) (page : HTMLDivElement) :
  deps s' <> deps (st w) ->
  canvasRef w = Some el -> pageRef w = Some page -> fabricRef w = None ->
  rerender s' w =
  mkWorld s' (Some el) (Some page) (Some (configure s' (freshCanvas page)))
          true true (lifecycle w ++ [Created (freshCanvas page)]).
Proof.
  intros Hd Hc Hp Hf.
  assert (Hs : deps_same (deps (st w)) (deps s') = false)
    by (apply deps_same_neq; congruence).
  unfold rerender, exec, commit, effectBody, cleanup, updateDrawingMode,
    new_Canvas, dispose, bind, read, write, ret.
  destruct w as [s cr pr fr rl ec lg]; cbn in *. subst cr pr fr.
  rewrite Hs. destruct ec; reflexivity.
Qed.

(** ** The store invariant *)

Lemma configure_deps (s s' : AppState) (c : Canvas) :
  deps s = deps s' -> configure s c = configure s' c.
Proof.
  destruct s, s'; unfold deps; cbn. intros H.
  injection H as -> -> -> -> -> ->. reflexivity.
Qed.

Lemma configure_fresh (s : AppState) (page page' : HTMLDivElement) :
  isDrawingMode (configure s (freshCanvas page)) =
  isDrawingMode (configure s (freshCanvas page')) /\
  freeDrawingBrush (configure s (freshCanvas page)) =
  freeDrawingBrush (configure s (freshCanvas page')).
Proof.
  unfold configure, freshCanvas; cbn.
  destruct (annotationMode s) as [[]|], defaultBrush; cbn; split; reflexivity.
Qed.

Lemma configuredFor_fresh (s : AppState) (page : HTMLDivElement) :
  configuredFor s (configure s (freshCanvas page)).
Proof. intros page'. apply configure_fresh. Qed.

Lemma configuredFor_deps (s s' : AppState) (c : Canvas) :
  deps s = deps s' -> configuredFor s c -> configuredFor s' c.
Proof.
  intros H Hc page. rewrite <- (configure_deps s s' _ H). apply Hc.
Qed.

Lemma rerender_unmounted (s' : AppState) (w : World) :
  deps s' <> deps (st w) ->
  canvasRef w = None \/ pageRef w = None ->
  effectCleanup (rerender s' w) = false /\
  fabricRef (rerender s' w) = (if effectCleanup w then None else fabricRef w).
Proof.
  intros Hd Hm.
  assert (Hs : deps_same (deps (st w)) (deps s') = false)
    by (apply deps_same_neq; congruence).
  unfold rerender, exec, commit, effectBody, cleanup, updateDrawingMode,
    new_Canvas, dispose, bind, read, write, ret.
  destruct w as [s cr pr fr rl ec lg]; cbn in *. rewrite Hs.
  destruct ec, fr, cr, pr; cbn; destruct Hm; try discriminate;
    split; reflexivity.
Qed.

Lemma storeInv_rerender (s' : AppState) (w : World) :
  storeInv w -> storeInv (rerender s' w).
Proof.
  intros Hinv.
  destruct (deps_same (deps (st w)) (deps s')) eqn:Hs.
  - apply deps_same_eq in Hs. rewrite rerender_skip by congruence.
    intros c Hc. destruct (Hinv c Hc) as [Hr Hk]. split; [exact Hr|].
    cbn. eapply configuredFor_deps; eauto.
  - apply deps_same_neq in Hs.
    assert (Hd : deps s' <> deps (st w)) by congruence.
    destruct (canvasRef w) as [el|] eqn:Hel;
      [destruct (pageRef w) as [page|] eqn:Hpg|].
    + destruct (fabricRef w) as [old|] eqn:Hf.
      * rewrite (rerender_recreate s' w el page old Hd Hel Hpg Hf).
        intros c Hc. cbn in Hc. injection Hc as <-.
        split; [reflexivity | apply configuredFor_fresh].
      * rewrite (rerender_create s' w el page Hd Hel Hpg Hf).
        intros c Hc. cbn in Hc. injection Hc as <-.
        split; [reflexivity | apply configuredFor_fresh].
    + destruct (rerender_unmounted s' w Hd (or_intror Hpg)) as [_ Hf].
      intros c Hc. rewrite Hf in Hc.
      destruct (effectCleanup w) eqn:Hec; [discriminate|].
      destruct (Hinv c Hc) as [Hr _]. congruence.
    + destruct (rerender_unmounted s' w Hd (or_introl Hel)) as [_ Hf].
      intros c Hc. rewrite Hf in Hc.
      destruct (effectCleanup w) eqn:Hec; [discriminate|].
      destruct (Hinv c Hc) as [Hr _]. congruence.
Qed.

Lemma storeInv_dispatch (e : Event) (w : World) :
  storeInv w -> storeInv (dispatch e w).
Proof.
  intros Hinv. destruct e; cbn -[rerender];
    unfold goToPage, selectTool;
    repeat match goal with
           | |- storeInv (if ?b then _ else _) => destruct b
           end;
    try exact Hinv; try (apply storeInv_rerender; exact Hinv).
  - (* WindowResize *)
    unfold exec, handleResize, bind, read, write, ret; cbn.
    destruct (fabricRef w) as [c|] eqn:Hf; [|exact Hinv].
    destruct (pageRef w) as [p|] eqn:Hp; [|exact Hinv].
    intros c' Hc'. cbn in Hc'. injection Hc' as <-.
    destruct (Hinv c Hf) as [Hr Hk]. split; [exact Hr|]. exact Hk.
  - (* PointerDraw *)
    destruct (fabricRef w) as [c|] eqn:Hf; [|exact Hinv].
    destruct (isDrawingMode c) eqn:Hm; [|exact Hinv].
    destruct (freeDrawingBrush c) eqn:Hb; [|exact Hinv].
    intros c' Hc'. cbn in Hc'. injection Hc' as <-.
    destruct (Hinv c Hf) as [Hr Hk]. split; [exact Hr|].
    intros page. destruct (Hk page) as [H1 H2]. cbn. split; assumption.
Qed.

Lemma reachable_storeInv (w : World) : reachable w -> storeInv w.
Proof.
  induction 1 as [|e w _ IH].
  - intros c Hc. discriminate Hc.
  - apply storeInv_dispatch. exact IH.
Qed.

Lemma reachable_run (es : list Event) (w : World) :
  reachable w -> reachable (run es w).
Proof.
  revert w. induction es as [|e es IH]; intros w Hw; cbn.
  - exact Hw.
  - apply IH. constructor. exact Hw.
Qed.

(** ** Facts about the handlers and the canvas operations *)

Lemma handlePageChange_current (s : AppState) :
  handlePageChange (currentPage s) s = s.
Proof. destruct s; reflexivity. Qed.

Lemma handlePageChange_deps (p : Z) (s : AppState) :
  p <> currentPage s -> deps (handlePageChange p s) <> deps s.
Proof. intros Hne H. injection H as H. contradiction. Qed.

Lemma objects_configure (s : AppState) (c : Canvas) :
  objects (configure s c) = objects c.
Proof.
  unfold configure.
  destruct (annotationMode s) as [[]|]; cbn;
    try destruct (freeDrawingBrush c); reflexivity.
Qed.

Lemma bounds_configure (s : AppState) (c : Canvas) :
  canvasWidth (configure s c) = canvasWidth c /\
  canvasHeight (configure s c) = canvasHeight c.
Proof.
  unfold configure.
  destruct (annotationMode s) as [[]|]; cbn;
    try destruct (freeDrawingBrush c); split; reflexivity.
Qed.

(** ** Page navigation *)

(** C1, as the code has it.  With the canvas and the page container attached
    and a fabric canvas [old] in place, [goToPage p] to a page other than the
    current one sets [currentPage] to [p]; the old canvas is disposed once,
    then one new canvas is constructed, and nothing else happens to the
    surface.  To the current page, [goToPage] changes nothing at all: the
    dependency array is the same and the effect does not run.  The handler
    has no range check, so no bound on [p] is needed. *)
Theorem goToPage_cycle (w : World) (p : Z)
  (el : HTMLCanvasElement) (page : HTMLDivElement) (old : Canvas) :
  canvasRef w = Some el -> pageRef w = Some page -> fabricRef w = Some old ->
  (p = currentPage (st w) -> goToPage p w = w) /\
  (p <> currentPage (st w) ->
   currentPage (st (goToPage p w)) = p /\
   lifecycle (goToPage p w) =
     lifecycle w ++ [Disposed old; Created (freshCanvas page)] /\
   fabricRef (goToPage p w) =
     Some (configure (st (goToPage p w)) (freshCanvas page))).
Proof.
  intros Hel Hpg Hf. unfold goToPage. split.
  - intros ->. rewrite handlePageChange_current. apply rerender_same_state.
  - intros Hne.
    rewrite (rerender_recreate _ w el page old
               (handlePageChange_deps p (st w) Hne) Hel Hpg Hf).
    cbn. repeat split; reflexivity.
Qed.


(** ** Tool configuration and the strokes *)






(** ** The document session *)

Lemma st_handleResize (w : World) : st (exec handleResize w) = st w.
Proof.
  unfold exec, handleResize, bind, read, write, ret. cbn.
  destruct (fabricRef w), (pageRef w); reflexivity.
Qed.

(** The session state after an event, by cases on the control and on whether
    it is enabled; [lia] reads the page tests of the two buttons. *)
Ltac session_step e w :=
  destruct e as [[f|] | n | tool | v | v | v | v | | | | result | c p];
  cbn -[rerender goToPage selectTool handleResize exec];
  unfold goToPage, selectTool;
  repeat match goal with
         | |- context [if ?b then _ else _] =>
             let E := fresh "E" in destruct b eqn:E
         | |- context [match fabricRef w with _ => _ end] =>
             destruct (fabricRef w)
         | |- context [match freeDrawingBrush ?c with _ => _ end] =>
             destruct (freeDrawingBrush c)
         end;
  rewrite ?st_rerender, ?st_handleResize; cbn.

Lemma lower_bound_dispatch (e : Event) (w : World) :
  1 <= currentPage (st w) -> 1 <= currentPage (st (dispatch e w)).
Proof.
  intros H. session_step e w; lia.
Qed.

(** C4, as the code has it.  In every world the component can reach the
    current page is at least 1.  The upper bound [currentPage <= numPages]
    is kept, once it holds, by every event, a page-count report [n] included
    provided the current page is no greater than [n]; the code does not
    establish it when a file is chosen, since [numPages] is only replaced by
    the later report.  Choosing a file sets [currentPage] to 1. *)
Theorem page_bounds :
  (forall w, reachable w -> 1 <= currentPage (st w)) /\
  (forall w e,
     pageInRange (st w) ->
     (forall n, e = DocumentLoadSuccess n -> currentPage (st w) <= n) ->
     pageInRange (st (dispatch e w))) /\
  (forall w f, currentPage (st (dispatch (FileInputChange (Some f)) w)) = 1).
Proof.
  split; [|split].
  - induction 1 as [|e w _ IH]; [cbn; lia|].
    apply lower_bound_dispatch. exact IH.
  - intros w e [Hlo Hhi] Hn. unfold pageInRange.
    session_step e w; try specialize (Hn n eq_refl); lia.
  - intros w f. cbn -[rerender]. rewrite st_rerender. reflexivity.
Qed.

(** C5.  Whatever page was current, choosing a file stores that file and
    sets [currentPage] to 1: in the handler, and in the component once the
    update is committed. *)
Theorem loadFile_resets_page (w : World) (f : File) :
  (forall s, file (onFileChange (Some f) s) = Some f /\
             currentPage (onFileChange (Some f) s) = 1) /\
  file (st (dispatch (FileInputChange (Some f)) w)) = Some f /\
  currentPage (st (dispatch (FileInputChange (Some f)) w)) = 1.
Proof.
  split; [intros s; split; reflexivity|].
  cbn -[rerender]. rewrite st_rerender. split; reflexivity.
Qed.

(** C10.  A change event of the file input that carries no file leaves the
    store as it is: file, current page, page count, the canvas and the
    record of constructed and disposed canvases. *)
Theorem file_cancel_noop (w : World) :
  onFileChange None (st w) = st w /\
  dispatch (FileInputChange None) w = w.
Proof.
  split; [reflexivity|]. cbn -[rerender]. apply rerender_same_state.
Qed.

(** ** What the brush is set to *)

Lemma configuredFor_eraser (s : AppState) (c : Canvas) (b : Brush) :
  defaultBrush = Some b -> annotationMode s = Some eraser ->
  configuredFor s c ->
  isDrawingMode c = true /\ freeDrawingBrush c = Some (eraseBrush b).
Proof.
  intros Hb Hm Hk. destruct (Hk (mkDiv 0 0)) as [H1 H2].
  rewrite H1, H2. unfold configure, freshCanvas. cbn.
  rewrite Hm, Hb. split; reflexivity.
Qed.

Lemma configuredFor_draw (s : AppState) (c : Canvas) (b : Brush) :
  defaultBrush = Some b ->
  annotationMode s = Some pen \/ annotationMode s = Some highlighter ->
  configuredFor s c ->
  isDrawingMode c = true /\ freeDrawingBrush c = Some (drawBrush s b).
Proof.
  intros Hb Hm Hk. destruct (Hk (mkDiv 0 0)) as [H1 H2].
  rewrite H1, H2. unfold configure, freshCanvas. cbn.
  destruct Hm as [Hm | Hm]; rewrite Hm, Hb; split; reflexivity.
Qed.

(** ** Creating and resizing the surface *)

(** C8, as the code has it.  The effect guards on the two elements, not on
    their size.  With the canvas element or the page container missing the
    effect body does nothing: the store is returned as it was and no cleanup
    is handed back.  With both attached and no surface yet, exactly one
    canvas is constructed, also for a page container of width or height 0;
    a client width or height that is not 0 is the width or height of that
    canvas.  A window resize does not make up for a skipped initialization:
    without a surface it changes nothing. *)
Theorem effect_guard (s : AppState) (w : World) :
  (canvasRef w = None \/ pageRef w = None -> effectBody s w = (false, w)) /\
  (forall el page,
     canvasRef w = Some el -> pageRef w = Some page -> fabricRef w = None ->
     (exists made,
        lifecycle (exec (effectBody s) w) = lifecycle w ++ [Created made]) /\
     exists c, fabricRef (exec (effectBody s) w) = Some c /\
               (clientWidth page <> 0 -> canvasWidth c = clientWidth page) /\
               (clientHeight page <> 0 ->
                canvasHeight c = clientHeight page)) /\
  (fabricRef w = None -> dispatch WindowResize w = w).
Proof.
  split; [|split].
  - unfold effectBody, bind, read, ret.
    intros [H | H]; rewrite H; [reflexivity|].
    destruct (canvasRef w); reflexivity.
  - intros el page Hel Hpg Hf.
    unfold exec, effectBody, updateDrawingMode, new_Canvas, dispose,
      bind, read, write, ret.
    rewrite Hel, Hpg, Hf. cbn. split; [eexists; reflexivity|].
    eexists. split; [reflexivity|].
    destruct (bounds_configure s (freshCanvas page)) as [Hw Hh].
    split; intros _; assumption.
  - intros Hf. cbn. destruct (resizeListener w); [|reflexivity].
    unfold exec, handleResize, bind, read, write, ret. rewrite Hf.
    reflexivity.
Qed.

(** C9.  [handleResize] run twice is [handleResize] run once, also as the
    window's resize listener; the objects on the canvas are the same before
    and after; and where there are a surface and a page container, the store
    afterwards differs from the one before only in the width and height of
    the canvas, which are those of the page container. *)
Theorem handleResize_idempotent (w : World) :
  exec handleResize (exec handleResize w) = exec handleResize w /\
  dispatch WindowResize (dispatch WindowResize w) = dispatch WindowResize w /\
  option_map objects (fabricRef (dispatch WindowResize w)) =
    option_map objects (fabricRef w) /\
  (forall c page,
     fabricRef w = Some c -> pageRef w = Some page ->
     exec handleResize w =
     with_fabricRef
       (Some (mkCanvas (isDrawingMode c) (clientWidth page) (clientHeight page)
                       (preserveObjectStacking c) (freeDrawingBrush c)
                       (objects c))) w).
Proof.
  assert (Hidem : exec handleResize (exec handleResize w)
                  = exec handleResize w).
  { unfold exec, handleResize, bind, read, write, ret.
    destruct w as [s cr pr [c|] rl ec lg]; destruct pr as [p|]; reflexivity. }
  repeat split.
  - exact Hidem.
  - cbn. destruct (resizeListener w) eqn:Hl.
    + replace (resizeListener (exec handleResize w)) with true.
      * exact Hidem.
      * unfold exec, handleResize, bind, read, write, ret. cbn.
        destruct (fabricRef w), (pageRef w); cbn; congruence.
    + rewrite Hl. reflexivity.
  - unfold dispatch, exec, handleResize, bind, read, write, ret.
    destruct w as [s cr [p|] [c|] [|] ec lg]; reflexivity.
  - intros c page Hf Hp.
    unfold exec, handleResize, bind, read, write, ret. rewrite Hf, Hp.
    reflexivity.
Qed.

(** ** One canvas at a time *)

Lemma wellKept_rerender (s' : AppState) (w : World) :
  wellKept w -> wellKept (rerender s' w).
Proof.
  intros (Hc & Hl & Hg).
  destruct (deps_same (deps (st w)) (deps s')) eqn:Hs.
  - apply deps_same_eq in Hs. rewrite rerender_skip by congruence.
    repeat split; assumption.
  - unfold wellKept, logState, surfaceLive, rerender, exec, commit,
      effectBody, cleanup, updateDrawingMode, new_Canvas, dispose,
      bind, read, write, ret in *.
    destruct w as [s cr pr fr rl ec lg]; cbn in *. rewrite Hs.
    destruct fr as [old|]; subst ec rl; destruct cr as [el|];
      try destruct pr as [page|]; cbn;
      rewrite ?fold_left_app; cbn; rewrite ?Hg; repeat split; reflexivity.
Qed.

Lemma wellKept_dispatch (e : Event) (w : World) :
  wellKept w -> wellKept (dispatch e w).
Proof.
  intros Hk. destruct e; cbn -[rerender];
    unfold goToPage, selectTool;
    repeat match goal with
           | |- wellKept (if ?b then _ else _) => destruct b
           end;
    try exact Hk; try (apply wellKept_rerender; exact Hk).
  - (* WindowResize *)
    unfold wellKept, surfaceLive, exec, handleResize, bind, read, write, ret
      in *.
    destruct w as [s cr [p|] [c|] rl ec lg]; cbn in *; exact Hk.
  - (* PointerDraw *)
    unfold wellKept, surfaceLive in *.
    destruct w as [s cr pr [c|] rl ec lg]; cbn in *;
      [destruct (isDrawingMode c); [destruct (freeDrawingBrush c)|]|];
      exact Hk.
Qed.

Lemma reachable_wellKept (w : World) : reachable w -> wellKept w.
Proof.
  induction 1 as [|e w _ IH].
  - repeat split.
  - apply wellKept_dispatch. exact IH.
Qed.

(** X1.  In every world the component can reach, the constructor and dispose
    calls made so far alternate, starting with a constructor call: no canvas
    is constructed while another is alive and none is disposed twice, and a
    canvas is alive at the end exactly when [fabricRef] holds one. *)
Theorem one_canvas_at_a_time (w : World) :
  reachable w -> logState (lifecycle w) = Some (surfaceLive w).
Proof. intros Hr. apply (reachable_wellKept w Hr). Qed.

(** X2.  In every reachable world the resize listener is on the window, and
    React holds a cleanup function, exactly when [fabricRef] holds a canvas:
    no listener outlives its canvas and no canvas is without its cleanup. *)
Theorem listener_with_surface (w : World) :
  reachable w ->
  resizeListener w = surfaceLive w /\ effectCleanup w = surfaceLive w.
Proof.
  intros Hr. destruct (reachable_wellKept w Hr) as (Hc & Hl & _).
  split; assumption.
Qed.

(** X3.  With no tool picked, a surface that exists in a reachable world is
    not in drawing mode and its brush is the one the library put there. *)
Theorem no_tool_no_drawing (w : World) (c : Canvas) :
  reachable w -> fabricRef w = Some c -> annotationMode (st w) = None ->
  isDrawingMode c = false /\ freeDrawingBrush c = defaultBrush.
Proof.
  intros Hr Hc Hm.
  destruct (reachable_storeInv _ Hr c Hc) as [_ Hk].
  destruct (Hk (mkDiv 0 0)) as [H1 H2].
  rewrite H1, H2. unfold configure. rewrite Hm. split; reflexivity.
Qed.

(** X4.  In a reachable world, a commit that changes a dependency while the
    canvas element or the page container is detached disposes the canvas
    that is there, if any, takes the resize listener off, and leaves no
    surface behind. *)
Theorem detached_teardown (w : World) (s' : AppState) :
  reachable w -> deps s' <> deps (st w) ->
  canvasRef w = None \/ pageRef w = None ->
  fabricRef (rerender s' w) = None /\
  resizeListener (rerender s' w) = false /\
  lifecycle (rerender s' w) =
    lifecycle w ++ match fabricRef w with
                   | Some c => [Disposed c]
                   | None => []
                   end.
Proof.
  intros Hr Hd Hm. destruct (reachable_wellKept w Hr) as (Hc & Hl & _).
  assert (Hs : deps_same (deps (st w)) (deps s') = false)
    by (apply deps_same_neq; congruence).
  unfold surfaceLive, rerender, exec, commit, effectBody, cleanup,
    updateDrawingMode, new_Canvas, dispose, bind, read, write, ret in *.
  destruct w as [s cr pr fr rl ec lg]; cbn in *. rewrite Hs.
  destruct fr as [old|]; subst ec rl; destruct cr as [el|];
    try destruct pr as [page|]; cbn;
    destruct Hm as [Hm | Hm]; try discriminate Hm;
    rewrite ?app_nil_r; repeat split; reflexivity.
Qed.

(** ** Which events reach the surface *)


Lemma onFileChange_deps (selectedFile : option File) (s : AppState) :
  currentPage s = 1 -> deps (onFileChange selectedFile s) = deps s.
Proof.
  intros H. destruct selectedFile; [|reflexivity].
  unfold deps. cbn. rewrite H. reflexivity.
Qed.



(** X6.  The page count is not a dependency of the effect: a page-count
    report, whatever the count, leaves the fabric canvas, the resize
    listener and the record of constructor and dispose calls as they are
    and changes nothing of the state but [numPages]. *)
Theorem page_count_report_frame (w : World) (n : Z) :
  fabricRef (dispatch (DocumentLoadSuccess n) w) = fabricRef w /\
  resizeListener (dispatch (DocumentLoadSuccess n) w) = resizeListener w /\
  lifecycle (dispatch (DocumentLoadSuccess n) w) = lifecycle w /\
  deps (st (dispatch (DocumentLoadSuccess n) w)) = deps (st w) /\
  file (st (dispatch (DocumentLoadSuccess n) w)) = file (st w) /\
  (shown (st w) = true ->
   numPages (st (dispatch (DocumentLoadSuccess n) w)) = n).
Proof.
  cbn -[rerender]. destruct (shown (st w)).
  - rewrite rerender_skip by reflexivity. cbn. repeat split; reflexivity.
  - repeat split; try reflexivity. discriminate.
Qed.

(** X7.  Choosing a file runs the effect only through the page reset.  On
    page 1 the choice neither disposes nor constructs a canvas: the fabric
    canvas of the previous document stays, with what is drawn on it.  On
    another page, with the elements attached, the canvas is disposed and an
    empty one is constructed. *)
Theorem file_choice_and_surface (w : World) (f : File) :
  (currentPage (st w) = 1 ->
   fabricRef (dispatch (FileInputChange (Some f)) w) = fabricRef w /\
   lifecycle (dispatch (FileInputChange (Some f)) w) = lifecycle w) /\
  (forall el page old,
     currentPage (st w) <> 1 ->
     canvasRef w = Some el -> pageRef w = Some page ->
     fabricRef w = Some old ->
     lifecycle (dispatch (FileInputChange (Some f)) w) =
       lifecycle w ++ [Disposed old; Created (freshCanvas page)] /\
     option_map objects (fabricRef (dispatch (FileInputChange (Some f)) w)) =
       Some []).
Proof.
  split.
  - intros Hp. cbn -[rerender].
    rewrite rerender_skip by (apply (onFileChange_deps (Some f)); exact Hp).
    split; reflexivity.
  - intros el page old Hp Hel Hpg Hf. cbn -[rerender].
    assert (Hd : deps (setCurrentPage 1 (setFile (Some f) (st w)))
                 <> deps (st w)).
    { intros H. injection H as H. congruence. }
    rewrite (rerender_recreate _ w el page old Hd Hel Hpg Hf). cbn.
    split; [reflexivity|]. rewrite objects_configure. reflexivity.
Qed.

Lemma rerender_surface_fate (s' : AppState) (w : World) (c : Canvas) :
  fabricRef w = Some c ->
  (lifecycle (rerender s' w) = lifecycle w /\
   fabricRef (rerender s' w) = Some c) \/
  (exists rest, lifecycle (rerender s' w) = lifecycle w ++ Disposed c :: rest).
Proof.
  intros Hf. destruct (deps_same (deps (st w)) (deps s')) eqn:Hs.
  - apply deps_same_eq in Hs. rewrite rerender_skip by congruence.
    left. split; [reflexivity | exact Hf].
  - unfold rerender, exec, commit, effectBody, cleanup, updateDrawingMode,
      new_Canvas, dispose, bind, read, write, ret.
    destruct w as [s cr pr fr rl ec lg]; cbn in *. subst fr. rewrite Hs.
    destruct ec, cr as [el|]; try destruct pr as [page|]; cbn;
      rewrite <- ?app_assoc; cbn;
      first [ left; split; reflexivity | right; eexists; reflexivity ].
Qed.

(** X8.  What is drawn is lost only through a dispose.  For every event
    other than a drawing gesture and every world with a canvas [c]: either
    no constructor or dispose call is made and the canvas in [fabricRef]
    still holds the objects of [c], or the next call made is the dispose of
    [c] itself. *)
Theorem strokes_kept_or_disposed (e : Event) (w : World) (c : Canvas) :
  fabricRef w = Some c ->
  (forall result, e <> PointerDraw result) ->
  (lifecycle (dispatch e w) = lifecycle w /\
   option_map objects (fabricRef (dispatch e w)) = Some (objects c)) \/
  (exists rest, lifecycle (dispatch e w) = lifecycle w ++ Disposed c :: rest).
Proof.
  intros Hf Hne.
  assert (Hkeep : lifecycle w = lifecycle w /\
                  option_map objects (fabricRef w) = Some (objects c))
    by (rewrite Hf; split; reflexivity).
  assert (Hre : forall s',
             (lifecycle (rerender s' w) = lifecycle w /\
              option_map objects (fabricRef (rerender s' w))
                = Some (objects c)) \/
             (exists rest,
                lifecycle (rerender s' w) = lifecycle w ++ Disposed c :: rest)).
  { intros s'. destruct (rerender_surface_fate s' w c Hf) as [[H1 H2] | H].
    - left. rewrite H1, H2. split; reflexivity.
    - right. exact H. }
  destruct e; cbn -[rerender]; unfold goToPage, selectTool;
    repeat match goal with
           | |- context [if ?b then _ else _] => destruct b
           end;
    try (left; exact Hkeep); try apply Hre.
  - (* WindowResize *)
    left. unfold exec, handleResize, bind, read, write, ret. rewrite Hf.
    destruct (pageRef w); cbn; rewrite ?Hf; split; reflexivity.
  - (* PointerDraw *)
    exfalso. exact (Hne result eq_refl).
Qed.

(** ** Navigation with the two buttons *)

Lemma st_ClickNext (w : World) :
  st (dispatch ClickNext w) =
  if shown (st w) && negb (currentPage (st w) =? numPages (st w))
  then handlePageChange (currentPage (st w) + 1) (st w) else st w.
Proof.
  cbn -[rerender]. unfold goToPage.
  destruct (shown (st w) && negb (currentPage (st w) =? numPages (st w)));
    [apply st_rerender | reflexivity].
Qed.

Lemma st_ClickPrevious (w : World) :
  st (dispatch ClickPrevious w) =
  if shown (st w) && negb (currentPage (st w) =? 1)
  then handlePageChange (currentPage (st w) - 1) (st w) else st w.
Proof.
  cbn -[rerender]. unfold goToPage.
  destruct (shown (st w) && negb (currentPage (st w) =? 1));
    [apply st_rerender | reflexivity].
Qed.

Lemma handlePageChange_back (p : Z) (s : AppState) :
  handlePageChange (currentPage s) (handlePageChange p s) = s.
Proof. destruct s; reflexivity. Qed.

(** X9.  Inside a loaded document the two buttons undo each other on the
    session state: "next" then "previous" from a page that is not the last,
    and "previous" then "next" from a page that is not the first, give back
    the state as it was. *)
Theorem next_previous_round_trip (w : World) :
  shown (st w) = true -> pageInRange (st w) ->
  (currentPage (st w) <> numPages (st w) ->
   st (dispatch ClickPrevious (dispatch ClickNext w)) = st w) /\
  (currentPage (st w) <> 1 ->
   st (dispatch ClickNext (dispatch ClickPrevious w)) = st w).
Proof.
  intros Hs [Hlo Hhi]. split; intros Hne.
  - rewrite st_ClickPrevious, st_ClickNext, Hs.
    apply Z.eqb_neq in Hne. rewrite Hne. cbn [andb negb].
    change (shown (handlePageChange (currentPage (st w) + 1) (st w)))
      with (shown (st w)).
    change (currentPage (handlePageChange (currentPage (st w) + 1) (st w)))
      with (currentPage (st w) + 1).
    rewrite Hs.
    replace (currentPage (st w) + 1 =? 1) with false
      by (symmetry; apply Z.eqb_neq; lia).
    cbn [andb negb].
    replace (currentPage (st w) + 1 - 1) with (currentPage (st w)) by lia.
    apply handlePageChange_back.
  - rewrite st_ClickNext, st_ClickPrevious, Hs.
    apply Z.eqb_neq in Hne. rewrite Hne. cbn [andb negb].
    change (shown (handlePageChange (currentPage (st w) - 1) (st w)))
      with (shown (st w)).
    change (currentPage (handlePageChange (currentPage (st w) - 1) (st w)))
      with (currentPage (st w) - 1).
    change (numPages (handlePageChange (currentPage (st w) - 1) (st w)))
      with (numPages (st w)).
    rewrite Hs.
    replace (currentPage (st w) - 1 =? numPages (st w)) with false
      by (symmetry; apply Z.eqb_neq; lia).
    cbn [andb negb].
    replace (currentPage (st w) - 1 + 1) with (currentPage (st w)) by lia.
    apply handlePageChange_back.
Qed.

Lemma next_clicks_state (k : nat) (w : World) :
  shown (st w) = true -> pageInRange (st w) ->
  shown (st (Nat.iter k (dispatch ClickNext) w)) = true /\
  numPages (st (Nat.iter k (dispatch ClickNext) w)) = numPages (st w) /\
  currentPage (st (Nat.iter k (dispatch ClickNext) w)) =
    Z.min (currentPage (st w) + Z.of_nat k) (numPages (st w)).
Proof.
  intros Hs [Hlo Hhi]. induction k as [|k (IHs & IHn & IHp)].
  - cbn. repeat split; try assumption. lia.
  - rewrite Nat.iter_succ, st_ClickNext.
    set (wk := Nat.iter k (dispatch ClickNext) w) in *.
    rewrite IHs. cbn [andb].
    destruct (currentPage (st wk) =? numPages (st wk)) eqn:E; cbn [negb].
    + apply Z.eqb_eq in E. repeat split; [assumption | lia | lia].
    + apply Z.eqb_neq in E.
      split; [exact IHs|]. split; [exact IHn|].
      unfold handlePageChange, setCurrentPage. cbn [currentPage]. lia.
Qed.

Lemma previous_clicks_state (k : nat) (w : World) :
  shown (st w) = true -> 1 <= currentPage (st w) ->
  shown (st (Nat.iter k (dispatch ClickPrevious) w)) = true /\
  currentPage (st (Nat.iter k (dispatch ClickPrevious) w)) =
    Z.max (currentPage (st w) - Z.of_nat k) 1.
Proof.
  intros Hs Hlo. induction k as [|k (IHs & IHp)].
  - cbn. split; [assumption | lia].
  - rewrite Nat.iter_succ, st_ClickPrevious.
    set (wk := Nat.iter k (dispatch ClickPrevious) w) in *.
    rewrite IHs. cbn [andb].
    destruct (currentPage (st wk) =? 1) eqn:E; cbn [negb].
    + apply Z.eqb_eq in E. split; [assumption | lia].
    + apply Z.eqb_neq in E. split; [exact IHs|].
      unfold handlePageChange, setCurrentPage. cbn [currentPage]. lia.
Qed.

(** X10.  Clicks saturate at both ends of a loaded document.  From page [p]
    of [n] with [1 <= p <= n], [k] clicks on "next" lead to page
    [min (p + k) n] and [k] clicks on "previous" to page [max (p - k) 1];
    the page count is the same throughout. *)
Theorem navigation_saturates (k : nat) (w : World) :
  shown (st w) = true -> pageInRange (st w) ->
  currentPage (st (Nat.iter k (dispatch ClickNext) w)) =
    Z.min (currentPage (st w) + Z.of_nat k) (numPages (st w)) /\
  numPages (st (Nat.iter k (dispatch ClickNext) w)) = numPages (st w) /\
  currentPage (st (Nat.iter k (dispatch ClickPrevious) w)) =
    Z.max (currentPage (st w) - Z.of_nat k) 1.
Proof.
  intros Hs Hin.
  destruct (next_clicks_state k w Hs Hin) as (_ & Hn & Hp).
  destruct (previous_clicks_state k w Hs (proj1 Hin)) as (_ & Hq).
  repeat split; assumption.
Qed.

(** ** Repeated and unrelated input *)

Lemma rerender_twice (s' : AppState) (w : World) :
  rerender s' (rerender s' w) = rerender s' w.
Proof.
  generalize (st_rerender s' w). generalize (rerender s' w).
  intros w1 H. rewrite <- H. apply rerender_same_state.
Qed.

Lemma gated_update_twice (g : AppState -> bool) (h : AppState -> AppState)
  (w : World) :
  (forall s, g (h s) = g s) -> (forall s, h (h s) = h s) ->
  (if g (st (if g (st w) then rerender (h (st w)) w else w))
   then rerender (h (st (if g (st w) then rerender (h (st w)) w else w)))
                 (if g (st w) then rerender (h (st w)) w else w)
   else (if g (st w) then rerender (h (st w)) w else w)) =
  (if g (st w) then rerender (h (st w)) w else w).
Proof.
  intros Hg Hh. destruct (g (st w)) eqn:E.
  - rewrite st_rerender, Hg, E, Hh. apply rerender_twice.
  - rewrite E. reflexivity.
Qed.

Lemma handleResize_twice (w : World) :
  exec handleResize (exec handleResize w) = exec handleResize w.
Proof.
  unfold exec, handleResize, bind, read, write, ret.
  destruct w as [s cr [p|] [c|] rl ec lg]; reflexivity.
Qed.

(** X11.  Every event but a click on "previous" or "next" is idempotent on
    the whole store: the same file chosen again, the same page count
    reported again, the same tool clicked again, the same color or size
    entered again, the window resized again or the same gesture result left
    again changes nothing more; in particular the surface is not rebuilt a
    second time. *)
Theorem repeated_event_noop (e : Event) (w : World) :
  e <> ClickPrevious -> e <> ClickNext ->
  dispatch e (dispatch e w) = dispatch e w.
Proof.
  intros Hp Hn. destruct e; try contradiction.
  - (* FileInputChange *)
    exact (gated_update_twice (fun _ => true) (onFileChange selectedFile) w
             (fun _ => eq_refl)
             (fun s => match selectedFile with
                       | Some f => eq_refl
                       | None => eq_refl
                       end)).
  - exact (gated_update_twice shown (onDocumentLoadSuccess n) w
             (fun _ => eq_refl) (fun _ => eq_refl)).
  - exact (gated_update_twice shown (handleAnnotationToolSelect tool) w
             (fun _ => eq_refl) (fun _ => eq_refl)).
  - exact (gated_update_twice
             (fun s => shown s && mode_is (annotationMode s) (Some pen))
             (setPenColor v) w (fun _ => eq_refl) (fun _ => eq_refl)).
  - exact (gated_update_twice
             (fun s => shown s && mode_is (annotationMode s) (Some pen))
             (setPenSize v) w (fun _ => eq_refl) (fun _ => eq_refl)).
  - exact (gated_update_twice
             (fun s => shown s && mode_is (annotationMode s) (Some highlighter))
             (setHighlighterColor v) w (fun _ => eq_refl) (fun _ => eq_refl)).
  - exact (gated_update_twice
             (fun s => shown s && mode_is (annotationMode s) (Some highlighter))
             (setHighlighterSize v) w (fun _ => eq_refl) (fun _ => eq_refl)).
  - (* WindowResize *)
    cbn. destruct (resizeListener w) eqn:Hl; [|rewrite Hl; reflexivity].
    replace (resizeListener (exec handleResize w)) with true.
    + apply handleResize_twice.
    + unfold exec, handleResize, bind, read, write, ret.
      destruct w as [s cr [p|] [c|] rl ec lg]; cbn in *; congruence.
  - (* PointerDraw *)
    cbn. destruct (fabricRef w) as [c|] eqn:Hf; [|rewrite Hf; reflexivity].
    destruct (isDrawingMode c) eqn:Hm;
      [destruct (freeDrawingBrush c) eqn:Hb|];
      cbn; rewrite ?Hf, ?Hm, ?Hb; reflexivity.
  - (* DomUpdate *)
    reflexivity.
Qed.

(** X12.  Each stored setting has one control.  The active tool changes
    only by a click on a tool button and, once a tool is picked, no event
    brings the component back to having none; the pen color and size change
    only by their own inputs, and likewise the highlighter's. *)
Theorem settings_frame (e : Event) (w : World) :
  ((forall tool, e <> ClickTool tool) ->
   annotationMode (st (dispatch e w)) = annotationMode (st w)) /\
  (annotationMode (st w) <> None ->
   annotationMode (st (dispatch e w)) <> None) /\
  ((forall v, e <> PenColorInput v) ->
   penColor (st (dispatch e w)) = penColor (st w)) /\
  ((forall v, e <> PenSizeInput v) ->
   penSize (st (dispatch e w)) = penSize (st w)) /\
  ((forall v, e <> HighlighterColorInput v) ->
   highlighterColor (st (dispatch e w)) = highlighterColor (st w)) /\
  ((forall v, e <> HighlighterSizeInput v) ->
   highlighterSize (st (dispatch e w)) = highlighterSize (st w)).
Proof.
  repeat split; intros H; session_step e w;
    try reflexivity; try assumption; try discriminate;
    exfalso; eapply H; reflexivity.
Qed.

(** X13.  The tool controls are exclusive.  A tool button carries the
    class [active] exactly when its tool is the active one, so at most one
    of the three does; the pen inputs are enabled exactly when the pen is
    active and the highlighter inputs exactly when the highlighter is; and
    an input event on a disabled input changes nothing. *)
Theorem tool_controls_exclusive (w : World) :
  (forall tool,
     toolButtonClass tool (st w) = "tool-button active" <->
     annotationMode (st w) = Some tool) /\
  (forall t t',
     toolButtonClass t (st w) = "tool-button active" ->
     toolButtonClass t' (st w) = "tool-button active" -> t = t') /\
  (penInputsDisabled (st w) = false <-> annotationMode (st w) = Some pen) /\
  (highlighterInputsDisabled (st w) = false <->
   annotationMode (st w) = Some highlighter) /\
  (forall v n,
     penInputsDisabled (st w) = true ->
     dispatch (PenColorInput v) w = w /\ dispatch (PenSizeInput n) w = w) /\
  (forall v n,
     highlighterInputsDisabled (st w) = true ->
     dispatch (HighlighterColorInput v) w = w /\
     dispatch (HighlighterSizeInput n) w = w).
Proof.
  assert (Hclass : forall tool,
             toolButtonClass tool (st w) = "tool-button active" <->
             annotationMode (st w) = Some tool).
  { intros tool. unfold toolButtonClass. rewrite <- mode_is_eq.
    destruct (mode_is (annotationMode (st w)) (Some tool)); cbn;
      split; congruence. }
  split; [exact Hclass|]. split; [|split; [|split; [|split]]].
  - intros t t' H1 H2. apply Hclass in H1, H2. congruence.
  - unfold penInputsDisabled. rewrite negb_false_iff. apply mode_is_eq.
  - unfold highlighterInputsDisabled. rewrite negb_false_iff.
    apply mode_is_eq.
  - unfold penInputsDisabled. intros v n H. apply negb_true_iff in H.
    cbn -[rerender]. rewrite H, andb_false_r. split; reflexivity.
  - unfold highlighterInputsDisabled. intros v n H. apply negb_true_iff in H.
    cbn -[rerender]. rewrite H, andb_false_r. split; reflexivity.
Qed.

(** X14.  The component does not check a size it is given.  While the pen
    is active, a size input event with any number, [NaN] or a value outside
    1..10 included, is stored as [penSize], and where fabric supplies a
    brush it is the brush width of the surface that exists afterwards; the
    same holds for the highlighter and [highlighterSize]. *)
Theorem size_input_unchecked (w : World) (v : number) (b : Brush) :
  reachable w -> defaultBrush = Some b -> shown (st w) = true ->
  (annotationMode (st w) = Some pen ->
   penSize (st (dispatch (PenSizeInput v) w)) = v /\
   forall c, fabricRef (dispatch (PenSizeInput v) w) = Some c ->
             option_map width (freeDrawingBrush c) = Some v) /\
  (annotationMode (st w) = Some highlighter ->
   highlighterSize (st (dispatch (HighlighterSizeInput v) w)) = v /\
   forall c, fabricRef (dispatch (HighlighterSizeInput v) w) = Some c ->
             option_map width (freeDrawingBrush c) = Some v).
Proof.
  intros Hr Hb Hs. split; intros Hm.
  - assert (Hst : st (dispatch (PenSizeInput v) w) = setPenSize v (st w)).
    { cbn -[rerender]. rewrite Hs, Hm. cbn -[rerender]. apply st_rerender. }
    split; [rewrite Hst; reflexivity|]. intros c Hc.
    assert (Hr' : reachable (dispatch (PenSizeInput v) w))
      by (constructor; exact Hr).
    destruct (reachable_storeInv _ Hr' c Hc) as [_ Hk].
    assert (Hm' : annotationMode (st (dispatch (PenSizeInput v) w)) = Some pen)
      by (rewrite Hst; exact Hm).
    destruct (configuredFor_draw _ c b Hb (or_introl Hm') Hk) as [_ H2].
    rewrite H2, Hst. unfold drawBrush. cbn. rewrite Hm. reflexivity.
  - assert (Hst : st (dispatch (HighlighterSizeInput v) w)
                  = setHighlighterSize v (st w)).
    { cbn -[rerender]. rewrite Hs, Hm. cbn -[rerender]. apply st_rerender. }
    split; [rewrite Hst; reflexivity|]. intros c Hc.
    assert (Hr' : reachable (dispatch (HighlighterSizeInput v) w))
      by (constructor; exact Hr).
    destruct (reachable_storeInv _ Hr' c Hc) as [_ Hk].
    assert (Hm' : annotationMode (st (dispatch (HighlighterSizeInput v) w))
                  = Some highlighter)
      by (rewrite Hst; exact Hm).
    destruct (configuredFor_draw _ c b Hb (or_intror Hm') Hk) as [_ H2].
    rewrite H2, Hst. unfold drawBrush. cbn. rewrite Hm. reflexivity.
Qed.

(** ** Leaving *)

(** X15.  Removing the component from any reachable world leaves nothing
    behind: no fabric canvas, no resize listener, no pending cleanup, and
    every canvas that was constructed has been disposed exactly once. *)
Theorem unmount_releases_surface (w : World) :
  reachable w ->
  fabricRef (unmount w) = None /\
  resizeListener (unmount w) = false /\
  effectCleanup (unmount w) = false /\
  logState (lifecycle (unmount w)) = Some false.
Proof.
  intros Hr. destruct (reachable_wellKept w Hr) as (Hc & Hl & Hg).
  unfold unmount, logState, surfaceLive, exec, cleanup, dispose,
    bind, read, write, ret in *.
  destruct w as [s cr pr [c|] rl ec lg]; cbn in *; subst ec rl; cbn.
  - rewrite fold_left_app, Hg. repeat split; reflexivity.
  - repeat split; try reflexivity. exact Hg.
Qed.

(** X16.  The erase mode does not stick and the pen's look does not leak
    into the eraser.  Where fabric supplies a brush [b]: in a reachable
    world the brush of a pen or highlighter surface has the [mode] of [b],
    and the brush of an eraser surface has the color, opacity, cap and join
    of [b]. *)
Theorem brush_starts_afresh (w : World) (b : Brush) (c : Canvas) :
  reachable w -> defaultBrush = Some b -> fabricRef w = Some c ->
  (annotationMode (st w) = Some pen \/
   annotationMode (st w) = Some highlighter ->
   option_map mode (freeDrawingBrush c) = Some (mode b)) /\
  (annotationMode (st w) = Some eraser ->
   option_map color (freeDrawingBrush c) = Some (color b) /\
   option_map opacity (freeDrawingBrush c) = Some (opacity b) /\
   option_map strokeLineCap (freeDrawingBrush c) = Some (strokeLineCap b) /\
   option_map strokeLineJoin (freeDrawingBrush c) = Some (strokeLineJoin b)).
Proof.
  intros Hr Hb Hc. destruct (reachable_storeInv _ Hr c Hc) as [_ Hk].
  split; intros Hm.
  - destruct (configuredFor_draw _ c b Hb Hm Hk) as [_ H2].
    rewrite H2. reflexivity.
  - destruct (configuredFor_eraser _ c b Hb Hm Hk) as [_ H2].
    rewrite H2. repeat split; reflexivity.
Qed.

End Surface.

(** ** The scenarios, run *)

Lemma penWorld_reachable : reachable pencilFabric (penWorld pencilFabric).
Proof. unfold penWorld. apply reachable_run. constructor. Qed.

(** C1 as stated fails: on page 2 of 3 with a surface in place,
    [goToPage 2] is in range and neither disposes nor constructs a canvas. *)
Lemma goToPage_current_page_no_cycle :
  shown (st (secondPageWorld pencilFabric)) = true /\
  1 <= 2 <= numPages (st (secondPageWorld pencilFabric)) /\
  fabricRef (secondPageWorld pencilFabric) <> None /\
  lifecycle (goToPage pencilFabric 2 (secondPageWorld pencilFabric)) =
    lifecycle (secondPageWorld pencilFabric) /\
  ~ (exists old fresh,
       lifecycle (goToPage pencilFabric 2 (secondPageWorld pencilFabric)) =
       lifecycle (secondPageWorld pencilFabric)
         ++ [Disposed old; Created fresh]).
Proof.
  split; [reflexivity|]. split; [vm_compute; split; discriminate|].
  split; [vm_compute; discriminate|]. split; [reflexivity|].
  intros (old & fresh & H). apply (f_equal (@length _)) in H.
  rewrite length_app in H. vm_compute in H. discriminate H.
Qed.

(** C1 at work: from page 1 to page 2 with the pen's surface in place. *)
Lemma goToPage_cycle_witness :
  canvasRef (penWorld pencilFabric) = Some AnnotationCanvas /\
  pageRef (penWorld pencilFabric) = Some letterPage /\
  2 <> currentPage (st (penWorld pencilFabric)) /\
  currentPage (st (goToPage pencilFabric 2 (penWorld pencilFabric))) = 2 /\
  lifecycle (goToPage pencilFabric 2 (penWorld pencilFabric)) =
    lifecycle (penWorld pencilFabric)
      ++ [Disposed (configure (st (penWorld pencilFabric))
                              (freshCanvas pencilFabric letterPage));
          Created (freshCanvas pencilFabric letterPage)].
Proof.
  assert (Hne : 2 <> currentPage (st (penWorld pencilFabric)))
    by (vm_compute; discriminate).
  destruct (goToPage_cycle pencilFabric (penWorld pencilFabric) 2
              AnnotationCanvas letterPage
              (configure (st (penWorld pencilFabric))
                         (freshCanvas pencilFabric letterPage))
              eq_refl eq_refl eq_refl) as [_ H].
  destruct (H Hne) as (H1 & H2 & _).
  split; [reflexivity|]. split; [reflexivity|]. split; [exact Hne|].
  split; [exact H1 | exact H2].
Defined.





(** C4 as stated fails: a file has been chosen and its page count is not
    reported yet, so the file is loaded and the current page, 1, is above the
    page count, 0. *)
Lemma file_chosen_before_page_count :
  file (st (dispatch pencilFabric (FileInputChange (Some sampleFile))
                     initialWorld)) = Some sampleFile /\
  ~ pageInRange (st (dispatch pencilFabric (FileInputChange (Some sampleFile))
                              initialWorld)).
Proof.
  split; [reflexivity|]. unfold pageInRange. vm_compute.
  intros [_ H]. apply H. reflexivity.
Qed.

(** C4 at work: page 1 of 3, then a report of 5 pages, or "next". *)
Lemma page_bounds_witness :
  reachable pencilFabric (penWorld pencilFabric) /\
  1 <= currentPage (st (penWorld pencilFabric)) /\
  pageInRange (st (penWorld pencilFabric)) /\
  pageInRange (st (dispatch pencilFabric (DocumentLoadSuccess 5)
                            (penWorld pencilFabric))) /\
  pageInRange (st (dispatch pencilFabric ClickNext (penWorld pencilFabric))).
Proof.
  destruct (page_bounds pencilFabric) as (Hlow & Hkeep & _).
  assert (Hin : pageInRange (st (penWorld pencilFabric)))
    by (vm_compute; split; discriminate).
  split; [exact penWorld_reachable|].
  split; [apply Hlow; exact penWorld_reachable|].
  split; [exact Hin|]. split.
  - apply Hkeep; [exact Hin|].
    intros n H. injection H as <-. vm_compute. discriminate.
  - apply Hkeep; [exact Hin|]. intros n H. discriminate H.
Defined.

(** C9 at work: the container went from 612 by 792 to 800 by 1000. *)
Lemma handleResize_idempotent_witness :
  pageRef (relaidWorld pencilFabric) = Some (mkDiv 800 1000) /\
  option_map objects (fabricRef (relaidWorld pencilFabric)) =
    Some [sampleStroke] /\
  option_map canvasWidth
    (fabricRef (exec handleResize (relaidWorld pencilFabric))) = Some 800 /\
  option_map canvasHeight
    (fabricRef (exec handleResize (relaidWorld pencilFabric))) = Some 1000 /\
  option_map objects
    (fabricRef (exec handleResize (relaidWorld pencilFabric))) =
    Some [sampleStroke].
Proof.
  destruct (handleResize_idempotent pencilFabric (relaidWorld pencilFabric))
    as (_ & _ & _ & Hbounds).
  split; [reflexivity|]. split; [reflexivity|].
  rewrite (Hbounds (set_objects [sampleStroke]
                      (configure (st (penWorld pencilFabric))
                                 (freshCanvas pencilFabric letterPage)))
                   (mkDiv 800 1000) eq_refl eq_refl).
  repeat split; reflexivity.
Defined.

(** ** The component on fabric 6 *)





(** C6, at the failing input.  A document is opened and the eraser button
    is clicked: the canvas is put in drawing mode, and it has no brush, so
    the assignments of [mode] and of the width 20 (lines 86-87) are skipped.
    Picked before the canvas element is attached, the eraser gets no canvas
    at all. *)
Theorem eraser_click_sets_no_brush :
  annotationMode (st (toolWorld fabric6 eraser)) = Some eraser /\
  (exists c, fabricRef (toolWorld fabric6 eraser) = Some c /\
             isDrawingMode c = true /\ freeDrawingBrush c = None) /\
  annotationMode (st (earlyEraserWorld fabric6)) = Some eraser /\
  canvasRef (earlyEraserWorld fabric6) = Some AnnotationCanvas /\
  fabricRef (earlyEraserWorld fabric6) = None.
Proof.
  split; [vm_compute; reflexivity|]. split.
  - eexists. split; [vm_compute; reflexivity|]. split; reflexivity.
  - repeat split; vm_compute; reflexivity.
Qed.

(** C7, at the failing input.  A document is opened and the pen button, or
    the highlighter button, is clicked: the canvas is put in drawing mode,
    and it has no brush, so color, width, opacity, cap and join (lines
    74-79) are assigned to nothing. *)
Theorem draw_tool_click_sets_no_brush :
  annotationMode (st (toolWorld fabric6 pen)) = Some pen /\
  (exists c, fabricRef (toolWorld fabric6 pen) = Some c /\
             isDrawingMode c = true /\ freeDrawingBrush c = None) /\
  annotationMode (st (toolWorld fabric6 highlighter)) = Some highlighter /\
  (exists c, fabricRef (toolWorld fabric6 highlighter) = Some c /\
             isDrawingMode c = true /\ freeDrawingBrush c = None).
Proof.
  split; [vm_compute; reflexivity|]. split.
  - eexists. split; [vm_compute; reflexivity|]. split; reflexivity.
  - split; [vm_compute; reflexivity|].
    eexists. split; [vm_compute; reflexivity|]. split; reflexivity.
Qed.

(** C8 as stated fails: the page container is attached with width and
    height 0, and the next effect run constructs a canvas all the same. *)
Lemma zero_size_surface_created :
  canvasRef (collapsedWorld fabric6) = Some AnnotationCanvas /\
  pageRef (collapsedWorld fabric6) = Some (mkDiv 0 0) /\
  fabricRef (collapsedWorld fabric6) = None /\
  lifecycle (collapsedWorld fabric6) = [] /\
  fabricRef (dispatch fabric6 (ClickTool pen) (collapsedWorld fabric6))
    <> None /\
  exists made,
    lifecycle (dispatch fabric6 (ClickTool pen) (collapsedWorld fabric6))
    = [Created made].
Proof.
  split; [vm_compute; reflexivity|]. split; [vm_compute; reflexivity|].
  split; [vm_compute; reflexivity|]. split; [vm_compute; reflexivity|].
  split; [vm_compute; discriminate|].
  eexists. vm_compute. reflexivity.
Qed.

(** C8 at work: nothing attached at mount; a 0 by 0 container later on; a
    612 by 792 container. *)
Lemma effect_guard_witness :
  canvasRef initialWorld = None /\
  effectBody fabric6 initialState initialWorld = (false, initialWorld) /\
  dispatch fabric6 WindowResize initialWorld = initialWorld /\
  (exists made,
     lifecycle (exec (effectBody fabric6 (st (collapsedWorld fabric6)))
                     (collapsedWorld fabric6))
     = lifecycle (collapsedWorld fabric6) ++ [Created made]) /\
  exists c,
    fabricRef (exec (effectBody fabric6 initialState)
                    (with_dom (Some AnnotationCanvas) (Some letterPage)
                              initialWorld)) = Some c /\
    canvasWidth c = 612 /\ canvasHeight c = 792.
Proof.
  destruct (effect_guard fabric6 initialState initialWorld)
    as (Hskip & _ & Hresize).
  destruct (effect_guard fabric6 (st (collapsedWorld fabric6))
              (collapsedWorld fabric6)) as (_ & Hzero & _).
  destruct (effect_guard fabric6 initialState
              (with_dom (Some AnnotationCanvas) (Some letterPage)
                        initialWorld)) as (_ & Hmake & _).
  split; [reflexivity|].
  split; [apply Hskip; left; reflexivity|].
  split; [apply Hresize; reflexivity|].
  split.
  - exact (proj1 (Hzero AnnotationCanvas (mkDiv 0 0)
                    eq_refl eq_refl eq_refl)).
  - destruct (Hmake AnnotationCanvas letterPage eq_refl eq_refl eq_refl)
      as (_ & c & Hc & Hw & Hh).
    exists c. split; [exact Hc|]. split.
    + apply Hw. discriminate.
    + apply Hh. discriminate.
Defined.

(** ** More scenarios, run *)

Lemma drawnWorld_reachable : reachable pencilFabric (drawnWorld pencilFabric).
Proof. constructor. exact penWorld_reachable. Qed.

Lemma secondPageWorld_reachable :
  reachable pencilFabric (secondPageWorld pencilFabric).
Proof. constructor. exact penWorld_reachable. Qed.

Lemma idleWorld_reachable : reachable pencilFabric (idleWorld pencilFabric).
Proof. unfold idleWorld. apply reachable_run. constructor. Qed.

Lemma detachedWorld_reachable :
  reachable pencilFabric (detachedWorld pencilFabric).
Proof. constructor. exact drawnWorld_reachable. Qed.

(** X1 at work: a canvas for page 1, disposed, and one for page 2. *)
Lemma one_canvas_at_a_time_witness :
  reachable pencilFabric (secondPageWorld pencilFabric) /\
  length (lifecycle (secondPageWorld pencilFabric)) = 3%nat /\
  logState (lifecycle (secondPageWorld pencilFabric)) = Some true.
Proof.
  split; [exact secondPageWorld_reachable|]. split; [reflexivity|].
  exact (one_canvas_at_a_time pencilFabric _ secondPageWorld_reachable).
Defined.

(** X2 at work: with the surface of page 2 in place. *)
Lemma listener_with_surface_witness :
  reachable pencilFabric (secondPageWorld pencilFabric) /\
  resizeListener (secondPageWorld pencilFabric) = true /\
  effectCleanup (secondPageWorld pencilFabric) = true.
Proof.
  split; [exact secondPageWorld_reachable|].
  exact (listener_with_surface pencilFabric _ secondPageWorld_reachable).
Defined.

(** X3 at work: page 2 was reached before any tool was picked. *)
Lemma no_tool_no_drawing_witness :
  reachable pencilFabric (idleWorld pencilFabric) /\
  annotationMode (st (idleWorld pencilFabric)) = None /\
  exists c,
    fabricRef (idleWorld pencilFabric) = Some c /\
    isDrawingMode c = false /\ freeDrawingBrush c = pencilFabric.
Proof.
  split; [exact idleWorld_reachable|]. split; [reflexivity|].
  exists (configure (st (idleWorld pencilFabric))
                    (freshCanvas pencilFabric letterPage)).
  split; [reflexivity|].
  exact (no_tool_no_drawing pencilFabric (idleWorld pencilFabric) _
           idleWorld_reachable eq_refl eq_refl).
Defined.

(** X4 at work: the elements are gone and the page is changed. *)
Lemma detached_teardown_witness :
  reachable pencilFabric (detachedWorld pencilFabric) /\
  canvasRef (detachedWorld pencilFabric) = None /\
  fabricRef (detachedWorld pencilFabric) <> None /\
  fabricRef (goToPage pencilFabric 2 (detachedWorld pencilFabric)) = None /\
  resizeListener (goToPage pencilFabric 2 (detachedWorld pencilFabric))
    = false.
Proof.
  split; [exact detachedWorld_reachable|]. split; [reflexivity|].
  split; [vm_compute; discriminate|].
  assert (Hd : deps (handlePageChange 2 (st (detachedWorld pencilFabric)))
               <> deps (st (detachedWorld pencilFabric)))
    by (vm_compute; discriminate).
  destruct (detached_teardown pencilFabric (detachedWorld pencilFabric)
              (handlePageChange 2 (st (detachedWorld pencilFabric)))
              detachedWorld_reachable Hd (or_introl eq_refl))
    as (H1 & H2 & _).
  split; [exact H1 | exact H2].
Defined.


(** X6 at work: seven pages are reported while the pen's surface exists. *)
Lemma page_count_report_frame_witness :
  shown (st (penWorld pencilFabric)) = true /\
  numPages (st (dispatch pencilFabric (DocumentLoadSuccess 7)
                         (penWorld pencilFabric))) = 7 /\
  fabricRef (dispatch pencilFabric (DocumentLoadSuccess 7)
                      (penWorld pencilFabric)) =
    fabricRef (penWorld pencilFabric).
Proof.
  destruct (page_count_report_frame pencilFabric (penWorld pencilFabric) 7)
    as (Hf & _ & _ & _ & _ & Hn).
  split; [reflexivity|]. split; [exact (Hn eq_refl) | exact Hf].
Defined.

(** X7 at work: another file is chosen over a drawn stroke on page 1, and
    on page 2. *)
Lemma file_choice_and_surface_witness :
  currentPage (st (drawnWorld pencilFabric)) = 1 /\
  option_map objects
    (fabricRef (dispatch pencilFabric (FileInputChange (Some (mkFile "b.pdf")))
                         (drawnWorld pencilFabric))) = Some [sampleStroke] /\
  currentPage (st (secondPageWorld pencilFabric)) <> 1 /\
  option_map objects
    (fabricRef (dispatch pencilFabric (FileInputChange (Some (mkFile "b.pdf")))
                         (secondPageWorld pencilFabric))) = Some [].
Proof.
  destruct (file_choice_and_surface pencilFabric (drawnWorld pencilFabric)
              (mkFile "b.pdf")) as [Hkeep _].
  destruct (file_choice_and_surface pencilFabric
              (secondPageWorld pencilFabric) (mkFile "b.pdf")) as [_ Hnew].
  assert (Hp : currentPage (st (secondPageWorld pencilFabric)) <> 1)
    by (vm_compute; discriminate).
  split; [reflexivity|]. split.
  - rewrite (proj1 (Hkeep eq_refl)). reflexivity.
  - split; [exact Hp|].
    exact (proj2 (Hnew AnnotationCanvas letterPage
                    (configure (st (secondPageWorld pencilFabric))
                               (freshCanvas pencilFabric letterPage))
                    Hp eq_refl eq_refl eq_refl)).
Defined.

(** X8 at work: the highlighter is picked over a drawn stroke. *)
Lemma strokes_kept_or_disposed_witness :
  option_map objects (fabricRef (drawnWorld pencilFabric))
    = Some [sampleStroke] /\
  ((lifecycle (dispatch pencilFabric (ClickTool highlighter)
                        (drawnWorld pencilFabric))
    = lifecycle (drawnWorld pencilFabric) /\
    option_map objects
      (fabricRef (dispatch pencilFabric (ClickTool highlighter)
                           (drawnWorld pencilFabric)))
    = Some [sampleStroke]) \/
   (exists rest,
      lifecycle (dispatch pencilFabric (ClickTool highlighter)
                          (drawnWorld pencilFabric))
      = lifecycle (drawnWorld pencilFabric)
        ++ Disposed (set_objects [sampleStroke]
                       (configure (st (penWorld pencilFabric))
                                  (freshCanvas pencilFabric letterPage)))
           :: rest)).
Proof.
  split; [reflexivity|].
  apply (strokes_kept_or_disposed pencilFabric (ClickTool highlighter)
           (drawnWorld pencilFabric)
           (set_objects [sampleStroke]
              (configure (st (penWorld pencilFabric))
                         (freshCanvas pencilFabric letterPage)))).
  - reflexivity.
  - intros result H. discriminate H.
Defined.

(** X9 at work: from page 1 and from page 2 of 3. *)
Lemma next_previous_round_trip_witness :
  pageInRange (st (penWorld pencilFabric)) /\
  st (dispatch pencilFabric ClickPrevious
        (dispatch pencilFabric ClickNext (penWorld pencilFabric)))
    = st (penWorld pencilFabric) /\
  st (dispatch pencilFabric ClickNext
        (dispatch pencilFabric ClickPrevious (secondPageWorld pencilFabric)))
    = st (secondPageWorld pencilFabric).
Proof.
  assert (H1 : pageInRange (st (penWorld pencilFabric)))
    by (vm_compute; split; discriminate).
  assert (H2 : pageInRange (st (secondPageWorld pencilFabric)))
    by (vm_compute; split; discriminate).
  split; [exact H1|]. split.
  - apply (next_previous_round_trip pencilFabric (penWorld pencilFabric)
             eq_refl H1).
    vm_compute. discriminate.
  - apply (next_previous_round_trip pencilFabric
             (secondPageWorld pencilFabric) eq_refl H2).
    vm_compute. discriminate.
Defined.

(** X10 at work: five clicks from page 1 of 3. *)
Lemma navigation_saturates_witness :
  pageInRange (st (penWorld pencilFabric)) /\
  currentPage (st (Nat.iter 5 (dispatch pencilFabric ClickNext)
                     (penWorld pencilFabric))) = 3 /\
  currentPage (st (Nat.iter 5 (dispatch pencilFabric ClickPrevious)
                     (penWorld pencilFabric))) = 1.
Proof.
  assert (H1 : pageInRange (st (penWorld pencilFabric)))
    by (vm_compute; split; discriminate).
  destruct (navigation_saturates pencilFabric 5 (penWorld pencilFabric)
              eq_refl H1) as (Hn & _ & Hp).
  split; [exact H1|]. split; [exact Hn | exact Hp].
Defined.

(** X11 at work: the highlighter button is clicked twice. *)
Lemma repeated_event_noop_witness :
  dispatch pencilFabric (ClickTool highlighter)
    (dispatch pencilFabric (ClickTool highlighter) (drawnWorld pencilFabric))
  = dispatch pencilFabric (ClickTool highlighter) (drawnWorld pencilFabric).
Proof.
  apply repeated_event_noop; discriminate.
Defined.

(** X12 at work: the highlighter is picked while the pen is active. *)
Lemma settings_frame_witness :
  annotationMode (st (penWorld pencilFabric)) <> None /\
  annotationMode (st (dispatch pencilFabric (ClickTool highlighter)
                               (penWorld pencilFabric))) <> None /\
  penColor (st (dispatch pencilFabric (ClickTool highlighter)
                         (penWorld pencilFabric)))
    = penColor (st (penWorld pencilFabric)) /\
  penSize (st (dispatch pencilFabric (ClickTool highlighter)
                        (penWorld pencilFabric)))
    = penSize (st (penWorld pencilFabric)).
Proof.
  destruct (settings_frame pencilFabric (ClickTool highlighter)
              (penWorld pencilFabric)) as (_ & Hsome & Hcolor & Hsize & _).
  assert (H : annotationMode (st (penWorld pencilFabric)) <> None)
    by (vm_compute; discriminate).
  split; [exact H|]. split; [exact (Hsome H)|]. split.
  - apply Hcolor. intros v E. discriminate E.
  - apply Hsize. intros v E. discriminate E.
Defined.

(** X13 at work: the pen is active, so the highlighter inputs are dead. *)
Lemma tool_controls_exclusive_witness :
  toolButtonClass pen (st (penWorld pencilFabric)) = "tool-button active" /\
  annotationMode (st (penWorld pencilFabric)) = Some pen /\
  highlighterInputsDisabled (st (penWorld pencilFabric)) = true /\
  dispatch pencilFabric (HighlighterColorInput "#00FF00")
           (penWorld pencilFabric) = penWorld pencilFabric.
Proof.
  destruct (tool_controls_exclusive pencilFabric (penWorld pencilFabric))
    as (Hclass & _ & _ & _ & _ & Hdead).
  split; [reflexivity|]. split; [apply Hclass; reflexivity|].
  split; [reflexivity|].
  exact (proj1 (Hdead "#00FF00" (Num 12) eq_refl)).
Defined.

(** X14 at work: the pen size field is emptied, and set to 1000. *)
Lemma size_input_unchecked_witness :
  reachable pencilFabric (penWorld pencilFabric) /\
  annotationMode (st (penWorld pencilFabric)) = Some pen /\
  penSize (st (dispatch pencilFabric (PenSizeInput NaN)
                        (penWorld pencilFabric))) = NaN /\
  penSize (st (dispatch pencilFabric (PenSizeInput (Num 1000))
                        (penWorld pencilFabric))) = Num 1000 /\
  (forall c,
     fabricRef (dispatch pencilFabric (PenSizeInput (Num 1000))
                         (penWorld pencilFabric)) = Some c ->
     option_map width (freeDrawingBrush c) = Some (Num 1000)).
Proof.
  destruct (size_input_unchecked pencilFabric (penWorld pencilFabric) NaN
              pencilBrush penWorld_reachable eq_refl eq_refl) as [Hnan _].
  destruct (size_input_unchecked pencilFabric (penWorld pencilFabric)
              (Num 1000) pencilBrush penWorld_reachable eq_refl eq_refl)
    as [Hbig _].
  split; [exact penWorld_reachable|]. split; [reflexivity|].
  split; [exact (proj1 (Hnan eq_refl))|].
  split; [exact (proj1 (Hbig eq_refl)) | exact (proj2 (Hbig eq_refl))].
Defined.

(** X15 at work: the component is removed with a stroke on the canvas. *)
Lemma unmount_releases_surface_witness :
  reachable pencilFabric (drawnWorld pencilFabric) /\
  fabricRef (drawnWorld pencilFabric) <> None /\
  fabricRef (unmount (drawnWorld pencilFabric)) = None /\
  resizeListener (unmount (drawnWorld pencilFabric)) = false /\
  logState (lifecycle (unmount (drawnWorld pencilFabric))) = Some false.
Proof.
  destruct (unmount_releases_surface pencilFabric (drawnWorld pencilFabric)
              drawnWorld_reachable) as (H1 & H2 & _ & H4).
  split; [exact drawnWorld_reachable|]. split; [vm_compute; discriminate|].
  split; [exact H1|]. split; [exact H2 | exact H4].
Defined.

(** X16 at work: eraser, then pen again. *)
Lemma brush_starts_afresh_witness :
  reachable pencilFabric
    (run pencilFabric [ClickTool eraser; ClickTool pen]
         (penWorld pencilFabric)) /\
  exists c,
    fabricRef (run pencilFabric [ClickTool eraser; ClickTool pen]
                   (penWorld pencilFabric)) = Some c /\
    option_map mode (freeDrawingBrush c) = Some None.
Proof.
  assert (Hr : reachable pencilFabric
                 (run pencilFabric [ClickTool eraser; ClickTool pen]
                      (penWorld pencilFabric)))
    by (apply reachable_run; exact penWorld_reachable).
  assert (Hf : fabricRef (run pencilFabric [ClickTool eraser; ClickTool pen]
                              (penWorld pencilFabric))
               = Some (configure (st (penWorld pencilFabric))
                                 (freshCanvas pencilFabric letterPage)))
    by (vm_compute; reflexivity).
  assert (Hm : annotationMode
                 (st (run pencilFabric [ClickTool eraser; ClickTool pen]
                          (penWorld pencilFabric))) = Some pen)
    by (vm_compute; reflexivity).
  split; [exact Hr|].
  exists (configure (st (penWorld pencilFabric))
                    (freshCanvas pencilFabric letterPage)).
  split; [exact Hf|].
  exact (proj1 (brush_starts_afresh pencilFabric _ pencilBrush _ Hr eq_refl Hf)
               (or_introl Hm)).
Defined.

End PDFNotes.
